(** * Transfer-chain transaction processor (src/processor/handlers.js)

    A shallow embedding of the Sawtooth transaction handler of the
    transfer-chain application: the address scheme, the JSON codec
    [encode]/[decode], the five handlers [createAsset], [transferAsset],
    [acknowledgeTransfer], [acceptTransfer], [rejectTransfer] and the
    dispatcher [JSONHandler.apply].

    Modelling conventions.
    - A JS string is represented by its UTF-8 bytes as a Rocq [string];
      [Buffer.from] and [buf.toString()] are then the identity (exact for
      well-formed text).
    - A JS plain object is an association list of its own properties
      ([obj]); a value [None] is [undefined]. Property order never matters
      to the program, since [encode] sorts the keys before serialising.
    - The ledger state is a total map from addresses to bytes, the empty
      string standing for an address with no data. *)

From Stdlib Require Import String Ascii List Bool Arith NArith Lia.
From Stdlib Require Import Permutation Sorted.
Import ListNotations.
Open Scope string_scope.

(* ------------------------------------------------------------------ *)
(** ** The JSON codec: [encode] and [decode] (handlers.js lines 25-26) *)

Module Codec.

Definition dq : ascii := "034"%char.  (* the double-quote character *)
Definition bs : ascii := "092"%char.  (* the backslash character *)

Definition chr (c : ascii) : string := String c EmptyString.

(** Lower-case hexadecimal digit, as in JSON.stringify's UnicodeEscape. *)
Definition hexdig (n : N) : ascii :=
  ascii_of_N (if (n <? 10)%N then 48 + n else 87 + n)%N.

(** QuoteJSONString, one character: the short escapes of the table,
    [\u00xx] for the remaining control characters, the character itself
    otherwise (bytes >= 0x80 are parts of UTF-8 sequences, never escaped). *)
Definition quote_char (c : ascii) : string :=
  let n := N_of_ascii c in
  if (n =? 34)%N then String bs (chr dq)
  else if (n =? 92)%N then String bs (chr bs)
  else if (n =? 8)%N then "\b"
  else if (n =? 9)%N then "\t"
  else if (n =? 10)%N then "\n"
  else if (n =? 12)%N then "\f"
  else if (n =? 13)%N then "\r"
  else if (n <? 32)%N then
    "\u00" ++ String (hexdig (n / 16)) (chr (hexdig (n mod 16)))
  else chr c.

(** The body of a quoted string, closing quote included. *)
Fixpoint quote_body (s : string) : string :=
  match s with
  | EmptyString => chr dq
  | String c s' => quote_char c ++ quote_body s'
  end.

Definition quote (s : string) : string := String dq (quote_body s).

(** A JS plain object with string-or-undefined property values. *)
Definition obj := list (string * option string).

(** Property read [o[k]]: [None] is [undefined]. *)
Fixpoint get_prop (k : string) (o : obj) : option string :=
  match o with
  | [] => None
  | (k', v) :: o' => if String.eqb k k' then v else get_prop k o'
  end.

(** Property assignment as done by JSON.parse (CreateDataProperty): an
    existing key keeps its place and gets the new value. *)
Fixpoint set_prop (k : string) (v : string) (o : obj) : obj :=
  match o with
  | [] => [(k, Some v)]
  | (k', v') :: o' =>
      if String.eqb k k' then (k, Some v) :: o' else (k', v') :: set_prop k v o'
  end.

(** [Array.prototype.sort] with the default comparator on the keys: the
    keys of an object are distinct, so any sorting algorithm gives the same
    list; insertion sort is used here. *)
Fixpoint insert_key (k : string) (l : list string) : list string :=
  match l with
  | [] => [k]
  | k' :: l' => if String.leb k k' then k :: l else k' :: insert_key k l'
  end.

Fixpoint sort_keys (l : list string) : list string :=
  match l with
  | [] => []
  | k :: l' => insert_key k (sort_keys l')
  end.

(** SerializeJSONProperty for one key of the replacer's PropertyList: an
    undefined value contributes no member. *)
Definition serialize_member (o : obj) (k : string) : list string :=
  match get_prop k o with
  | Some v => [quote k ++ ":" ++ quote v]
  | None => []
  end.

(** [encode = obj => Buffer.from(JSON.stringify(obj, Object.keys(obj).sort()))] *)
Definition encode (o : obj) : string :=
  "{" ++ String.concat "," (flat_map (serialize_member o) (sort_keys (map fst o)))
      ++ "}".

(** *** JSON.parse, on texts whose value is an object with string members.
    Such texts are parsed as JSON.parse does (white space, all escapes,
    duplicate keys); every other text is a decode failure ([None]).
    A [\u] escape denoting a lone surrogate has no UTF-8 form and is also
    a failure in this model. *)

Definition is_ws (c : ascii) : bool :=
  let n := N_of_ascii c in
  (n =? 32)%N || (n =? 9)%N || (n =? 10)%N || (n =? 13)%N.

Fixpoint skip_ws (s : string) : string :=
  match s with
  | String c s' => if is_ws c then skip_ws s' else s
  | EmptyString => EmptyString
  end.

Definition hex_val (c : ascii) : option N :=
  let n := N_of_ascii c in
  if ((48 <=? n) && (n <=? 57))%N then Some (n - 48)%N
  else if ((65 <=? n) && (n <=? 70))%N then Some (n - 55)%N
  else if ((97 <=? n) && (n <=? 102))%N then Some (n - 87)%N
  else None.

Definition hex4 (a b c d : ascii) : option N :=
  match hex_val a, hex_val b, hex_val c, hex_val d with
  | Some x, Some y, Some z, Some w => Some (((x * 16 + y) * 16 + z) * 16 + w)%N
  | _, _, _, _ => None
  end.

(** UTF-8 bytes of a code point. *)
Definition utf8_of (cp : N) : string :=
  if (cp <? 128)%N then chr (ascii_of_N cp)
  else if (cp <? 2048)%N then
    String (ascii_of_N (192 + cp / 64)) (chr (ascii_of_N (128 + cp mod 64)))
  else if (cp <? 65536)%N then
    String (ascii_of_N (224 + cp / 4096))
      (String (ascii_of_N (128 + (cp / 64) mod 64)) (chr (ascii_of_N (128 + cp mod 64))))
  else
    String (ascii_of_N (240 + cp / 262144))
      (String (ascii_of_N (128 + (cp / 4096) mod 64))
        (String (ascii_of_N (128 + (cp / 64) mod 64)) (chr (ascii_of_N (128 + cp mod 64))))).

Definition is_high (u : N) : bool := ((55296 <=? u) && (u <=? 56319))%N.
Definition is_low (u : N) : bool := ((56320 <=? u) && (u <=? 57343))%N.

Definition prepend (p : string) (r : option (string * string))
  : option (string * string) :=
  match r with
  | Some (v, rest) => Some (p ++ v, rest)
  | None => None
  end.

(** The characters of a string literal after its opening quote; returns
    the string's value and the text after the closing quote. *)
Fixpoint parse_chars (s : string) : option (string * string) :=
  match s with
  | EmptyString => None
  | String c s1 =>
    let n := N_of_ascii c in
    if (n =? 34)%N then Some (EmptyString, s1)
    else if (n =? 92)%N then
      match s1 with
      | EmptyString => None
      | String e s2 =>
        let m := N_of_ascii e in
        if (m =? 34)%N || (m =? 92)%N || (m =? 47)%N then prepend (chr e) (parse_chars s2)
        else if (m =? 98)%N then prepend (chr "008"%char) (parse_chars s2)
        else if (m =? 102)%N then prepend (chr "012"%char) (parse_chars s2)
        else if (m =? 110)%N then prepend (chr "010"%char) (parse_chars s2)
        else if (m =? 114)%N then prepend (chr "013"%char) (parse_chars s2)
        else if (m =? 116)%N then prepend (chr "009"%char) (parse_chars s2)
        else if (m =? 117)%N then
          match s2 with
          | String h1 (String h2 (String h3 (String h4 s3))) =>
            match hex4 h1 h2 h3 h4 with
            | None => None
            | Some u =>
              if is_high u then
                match s3 with
                | String b' (String u' (String l1 (String l2 (String l3 (String l4 s4))))) =>
                  if ((N_of_ascii b' =? 92)%N && (N_of_ascii u' =? 117)%N)%bool then
                    match hex4 l1 l2 l3 l4 with
                    | Some lo =>
                      if is_low lo then
                        prepend (utf8_of (65536 + (u - 55296) * 1024 + (lo - 56320))%N)
                                (parse_chars s4)
                      else None
                    | None => None
                    end
                  else None
                | _ => None
                end
              else if is_low u then None
              else prepend (utf8_of u) (parse_chars s3)
            end
          | _ => None
          end
        else None
      end
    else if (n <? 32)%N then None
    else prepend (chr c) (parse_chars s1)
  end.

Definition parse_string (s : string) : option (string * string) :=
  match s with
  | String c s' => if (N_of_ascii c =? 34)%N then parse_chars s' else None
  | EmptyString => None
  end.

Definition is_char (n : N) (c : ascii) : bool := (N_of_ascii c =? n)%N.

(** Members of a non-empty object, after the opening brace; returns the
    object and the text after the closing brace. *)
Fixpoint parse_members (fuel : nat) (acc : obj) (s : string) : option (obj * string) :=
  match fuel with
  | O => None
  | S fuel' =>
    match parse_string s with
    | None => None
    | Some (k, s1) =>
      match skip_ws s1 with
      | String c s2 =>
        if is_char 58 c then
          match parse_string (skip_ws s2) with
          | None => None
          | Some (v, s3) =>
            let acc' := set_prop k v acc in
            match skip_ws s3 with
            | String c' s4 =>
              if is_char 44 c' then parse_members fuel' acc' (skip_ws s4)
              else if is_char 125 c' then Some (acc', s4)
              else None
            | EmptyString => None
            end
          end
        else None
      | EmptyString => None
      end
    end
  end.

Definition parse_object (s : string) : option obj :=
  match skip_ws s with
  | String c s1 =>
    if is_char 123 c then
      let s2 := skip_ws s1 in
      let r := match s2 with
               | String c' s3 =>
                 if is_char 125 c' then Some ([], s3)
                 else parse_members (String.length s2) [] s2
               | EmptyString => None
               end in
      match r with
      | Some (o, rest) =>
        match skip_ws rest with EmptyString => Some o | _ => None end
      | None => None
      end
    else None
  | EmptyString => None
  end.

(** [decode = buf => JSON.parse(buf.toString())]; [None] as argument is
    [undefined] (a TypeError in [undefined.toString()]). *)
Definition decode (buf : option string) : option obj :=
  match buf with
  | Some b => parse_object b
  | None => None
  end.

(** *** Auxiliary notions for the codec's properties *)

(** The order used by the default [sort] comparator on keys. *)
Definition key_le (a b : string) : Prop := String.leb a b = true.

(** A record as the rules store it: distinct keys, no undefined value. *)
Definition valid_record (o : obj) : Prop :=
  NoDup (map fst o) /\ Forall (fun p => snd p <> None) o.

(** The string value of a property ([""] when undefined). *)
Definition prop_val (o : obj) (k : string) : string :=
  match get_prop k o with Some v => v | None => "" end.

(** The text of one member, and of the members of an object, as written
    by JSON.stringify. *)
Definition mem_text (k v : string) : string := quote k ++ ":" ++ quote v.

Definition members_text (ps : list (string * string)) : string :=
  String.concat "," (map (fun '(k, v) => mem_text k v) ps).

Definition as_obj (ps : list (string * string)) : obj :=
  map (fun '(k, v) => (k, Some v)) ps.

End Codec.

(* ------------------------------------------------------------------ *)
(** ** The transaction context: reads and writes of the ledger state *)

Module Ctx.

(** Failures of a handler's promise: an [InvalidTransaction] thrown by the
    handler, or any other JS exception (TypeError, SyntaxError, ...). *)
Inductive error :=
| InvalidTransaction (msg : string)
| UntypedError (what : string).

Inductive result (A : Type) :=
| Ok (a : A)
| Err (e : error).
Arguments Ok {A} a.
Arguments Err {A} e.

(** The context handed to the handler: the ledger state (address to bytes,
    [""] for no data) and the log of [state.set] calls made so far. *)
Record ctx := mkCtx { store : string -> string; writes : list (string * string) }.

(** A promise chain over the context. *)
Definition M (A : Type) := ctx -> result A * ctx.

Definition ret {A} (a : A) : M A := fun c => (Ok a, c).
Definition throw {A} (e : error) : M A := fun c => (Err e, c).
Definition bind {A B} (m : M A) (k : A -> M B) : M B :=
  fun c => match m c with
           | (Ok a, c') => k a c'
           | (Err e, c') => (Err e, c')
           end.

Notation "x <- m ;; k" := (bind m (fun x => k))
  (at level 61, m at next level, right associativity).

(** [state.get(addresses)]: a mapping holding exactly the requested
    addresses. *)
Definition get (addrs : list string) : M (list (string * string)) :=
  fun c => (Ok (map (fun a => (a, store c a)) addrs), c).

(** [entries[k]]: [None] is [undefined], for an address not requested. *)
Fixpoint lookup (k : string) (entries : list (string * string)) : option string :=
  match entries with
  | [] => None
  | (a, v) :: e' => if String.eqb k a then Some v else lookup k e'
  end.

Definition apply_writes (ws : list (string * string)) (st : string -> string)
  : string -> string :=
  fold_left (fun st' '(a, v) => fun x => if String.eqb x a then v else st' x) ws st.

(** [state.set(mapping)]: writes the mapping, resolves to its addresses. *)
Definition set (ws : list (string * string)) : M (list string) :=
  fun c => (Ok (map fst ws),
            mkCtx (apply_writes ws (store c)) (writes c ++ ws)%list).

(** [!entry || entry.length === 0] *)
Definition absent (entry : option string) : bool :=
  match entry with
  | Some e => (String.length e =? 0)%nat
  | None => true
  end.

(** [decode(entry)] inside a promise: a failed JSON.parse (or
    [undefined.toString()]) rejects the promise with an untyped error. *)
Definition decode_m (entry : option string) : M Codec.obj :=
  match Codec.decode entry with
  | Some o => ret o
  | None => throw (UntypedError "decode")
  end.

(** [signer !== v] for a string [signer] and a string-or-undefined [v]. *)
Definition js_neq (signer : string) (v : option string) : bool :=
  match v with
  | Some s => negb (String.eqb signer s)
  | None => true
  end.

End Ctx.

(* ------------------------------------------------------------------ *)
(** ** Addresses and handlers (handlers.js lines 9-23 and 28-167) *)

Module Handlers.
Import Codec Ctx.

Section Handlers.

(** The hex SHA-512 digest used by [getAddress] is left abstract: every
    result below holds for any digest function. *)
Variable sha512_hex : string -> string.

Definition getAddress (key : string) (length : nat) : string :=
  substring 0 length (sha512_hex key).

Definition FAMILY := "transfer-chain".
Definition PREFIX := getAddress FAMILY 6.

Definition getAssetAddress (name : string) := PREFIX ++ "00" ++ getAddress name 62.
Definition getTransferAddress (asset : string) := PREFIX ++ "10" ++ getAddress asset 62.
Definition getTransferAcknAddress (asset : string) := PREFIX ++ "11" ++ getAddress asset 62.
Definition getTransferApproveAddress (asset : string) := PREFIX ++ "12" ++ getAddress asset 62.
Definition getRegulatorAddress (asset : string) := PREFIX ++ "20" ++ getAddress asset 62.
Definition getParticipantAddress (asset : string) := PREFIX ++ "21" ++ getAddress asset 62.

(** [createAsset(asset, owner, state)] *)
Definition createAsset (asset owner : string) : M (list string) :=
  let address := getAssetAddress asset in
  entries <- get [address] ;;
  let entry := lookup address entries in
  if negb (absent entry) then throw (InvalidTransaction "Asset name in use")
  else set [(address, encode [("name", Some asset); ("owner", Some owner)])].

(** [transferAsset(asset, owner, signer, state)]; [owner] comes from the
    payload and may be undefined. *)
Definition transferAsset (asset : string) (owner : option string) (signer : string)
  : M (list string) :=
  let address := getTransferAddress asset in
  let acknAddress := getTransferAcknAddress asset in
  let assetAddress := getAssetAddress asset in
  entries <- get [assetAddress] ;;
  let entry := lookup assetAddress entries in
  if absent entry then throw (InvalidTransaction "Asset does not exist")
  else
    rec <- decode_m entry ;;
    if js_neq signer (get_prop "owner" rec)
    then throw (InvalidTransaction "Only an Asset's owner may transfer it")
    else set [(acknAddress, encode [("asset", Some asset); ("owner", owner)])].

(** [acknowledgeTransfer(asset, signer, state)] *)
Definition acknowledgeTransfer (asset signer : string) : M (list string) :=
  let acknAddress := getTransferAcknAddress asset in
  let address := getTransferAddress asset in
  entries <- get [acknAddress] ;;
  let entry := lookup acknAddress entries in
  if absent entry then throw (InvalidTransaction "Asset is not being transfered")
  else
    rec <- decode_m entry ;;
    if js_neq signer (get_prop "owner" rec)
    then throw (InvalidTransaction "Transfers can only be acknowledged by the new buyer")
    else set [(acknAddress, "");
              (getTransferApproveAddress asset,
               encode [("name", Some asset); ("owner", Some signer)])].

(** [acceptTransfer(asset, signer, state)]: reads the acknowledgment
    address, then looks up the transfer and regulator addresses in the
    returned mapping. *)
Definition acceptTransfer (asset signer : string) : M (list string) :=
  let acknAddress := getTransferAcknAddress asset in
  let address := getTransferAddress asset in
  entries <- get [acknAddress] ;;
  let entry := lookup address entries in
  let regularEntry := lookup (getRegulatorAddress signer) entries in
  if absent entry then throw (InvalidTransaction "Asset is not being transfered")
  else if absent regularEntry then throw (InvalidTransaction "You are not a regulator")
  else set [(address, encode [("name", Some asset); ("owner", Some signer)]);
            (getTransferApproveAddress asset, "")].

(** [rejectTransfer(asset, signer, state)]: the presence check is
    commented out in the source. *)
Definition rejectTransfer (asset signer : string) : M (list string) :=
  let address := getTransferAddress asset in
  entries <- get [address] ;;
  let entry := lookup address entries in
  rec <- decode_m entry ;;
  if js_neq signer (get_prop "owner" rec)
  then throw (InvalidTransaction "Transfers can only be rejected by the potential new owner")
  else set [(address, "")].

(** The decoded payload [{ action, asset, owner }]. *)
Record payload := mkPayload {
  action : string;
  p_asset : string;
  p_owner : option string
}.

Definition q (s : string) : string := String dq (s ++ chr dq).

Definition invalid_action_msg : string :=
  "Action must be " ++ q "create" ++ ", " ++ q "transfer" ++ ", " ++
  q "acknowledge" ++ ", " ++ q "accept" ++ ", or " ++ q "reject".

(** [JSONHandler.apply(txn, state)], from the decoded payload and the
    header's signer on. *)
Definition apply (p : payload) (signer : string) : M (list string) :=
  let asset := p_asset p in
  if String.eqb (action p) "create" then createAsset asset signer
  else if String.eqb (action p) "transfer" then transferAsset asset (p_owner p) signer
  else if String.eqb (action p) "acknowledge" then acknowledgeTransfer asset signer
  else if String.eqb (action p) "accept" then acceptTransfer asset signer
  else if String.eqb (action p) "reject" then rejectTransfer asset signer
  else throw (InvalidTransaction invalid_action_msg).

(** The registration made by the [JSONHandler] constructor:
    [super(FAMILY, '0.0', 'application/json', [PREFIX])]. *)
Record registration := mkRegistration {
  family_name : string;
  family_version : string;
  payload_encoding : string;
  namespaces : list string
}.

Definition JSONHandler_registration : registration :=
  mkRegistration FAMILY "0.0" "application/json" [PREFIX].

(** Ledger states reached from the empty state by committed transactions. *)
Inductive reachable : (string -> string) -> Prop :=
| reach_init : reachable (fun _ => "")
| reach_step st p signer r c' :
    reachable st ->
    apply p signer (mkCtx st []) = (Ok r, c') ->
    reachable (store c').

End Handlers.

End Handlers.

(* ------------------------------------------------------------------ *)
(** ** The write-sets of committed transactions *)

Module Commits.
Import Codec Ctx Handlers.

Section Commits.
Variable sha512_hex : string -> string.

(** The write-set of a transaction whose promise resolves, one shape per
    rule that can succeed; a created asset's address had no data. *)
Inductive committed_writes (st : string -> string) : list (string * string) -> Prop :=
| cw_create n o :
    st (getAssetAddress sha512_hex n) = "" ->
    committed_writes st [(getAssetAddress sha512_hex n,
                          encode [("name", Some n); ("owner", Some o)])]
| cw_offer n ow :
    st (getAssetAddress sha512_hex n) <> "" ->
    committed_writes st [(getTransferAcknAddress sha512_hex n,
                          encode [("asset", Some n); ("owner", ow)])]
| cw_acknowledge n o :
    st (getTransferAcknAddress sha512_hex n) <> "" ->
    committed_writes st [(getTransferAcknAddress sha512_hex n, "");
                         (getTransferApproveAddress sha512_hex n,
                          encode [("name", Some n); ("owner", Some o)])]
| cw_reject n :
    committed_writes st [(getTransferAddress sha512_hex n, "")].


End Commits.
End Commits.

(* ------------------------------------------------------------------ *)
(** ** Concrete runs

    A stand-in digest (the key itself) for evaluating the handlers on
    concrete inputs, and the states of the spec's end-to-end scenario. *)

Module Examples.
Import Codec Ctx Handlers.

Definition h0 (s : string) : string := s.

(** A stand-in with the length of a hex SHA-512 digest (128 characters). *)
Fixpoint hex_run (n : nat) : string :=
  match n with O => EmptyString | S n' => String "a"%char (hex_run n') end.
Definition h128 (s : string) : string := hex_run 128.

Definition st_empty : string -> string := fun _ => "".
Definition c_empty : ctx := mkCtx st_empty [].

(** The ledger state after one committed transaction. *)
Definition run_tx (st : string -> string) (p : payload) (signer : string)
  : string -> string :=
  store (snd (apply h0 p signer (mkCtx st []))).

Definition st_created : string -> string :=
  run_tx st_empty (mkPayload "create" "widget" None) "alice".
Definition st_offered : string -> string :=
  run_tx st_created (mkPayload "transfer" "widget" (Some "bob")) "alice".
Definition st_acked : string -> string :=
  run_tx st_offered (mkPayload "acknowledge" "widget" None) "bob".

(** [st_acked] with "regulator1" registered as a regulator. *)
Definition st_regulated : string -> string :=
  apply_writes [(getRegulatorAddress h0 "regulator1",
                 encode [("id", Some "regulator1")])] st_acked.

Definition record_widget_alice : obj := [("name", Some "widget"); ("owner", Some "alice")].
Definition offer_widget_bob : obj := [("asset", Some "widget"); ("owner", Some "bob")].
Definition record_unsorted : obj := [("owner", Some "bob"); ("name", Some "widget")].

(** A ledger holding a record at the transfer address of "widget" (no
    rule writes one; the reject rule reads it). *)
Definition st_transfer_record : string -> string :=
  apply_writes [(getTransferAddress h0 "widget", encode offer_widget_bob)] st_empty.

End Examples.

(* ------------------------------------------------------------------ *)
(** ** Facts about the address scheme and the context operations *)

Module Basics.
Import Codec Ctx Handlers.

Lemma append_cancel_l (p s1 s2 : string) : p ++ s1 = p ++ s2 -> s1 = s2.
Proof. induction p as [|c p IH]; simpl; [auto | intro E; injection E; auto]. Qed.

Ltac kind_neq :=
  let E := fresh "E" in
  intro E; apply append_cancel_l in E; simpl in E; injection E;
  intros; discriminate.

Section Addr.
Variable sha512_hex : string -> string.

Lemma transfer_neq_ackn a b :
  getTransferAddress sha512_hex a <> getTransferAcknAddress sha512_hex b.
Proof. unfold getTransferAddress, getTransferAcknAddress. kind_neq. Qed.

Lemma transfer_neq_approve a b :
  getTransferAddress sha512_hex a <> getTransferApproveAddress sha512_hex b.
Proof. unfold getTransferAddress, getTransferApproveAddress. kind_neq. Qed.

Lemma transfer_neq_asset a b :
  getTransferAddress sha512_hex a <> getAssetAddress sha512_hex b.
Proof. unfold getTransferAddress, getAssetAddress. kind_neq. Qed.

Lemma regulator_neq_ackn a b :
  getRegulatorAddress sha512_hex a <> getTransferAcknAddress sha512_hex b.
Proof. unfold getRegulatorAddress, getTransferAcknAddress. kind_neq. Qed.

Lemma ackn_neq_approve a b :
  getTransferAcknAddress sha512_hex a <> getTransferApproveAddress sha512_hex b.
Proof. unfold getTransferAcknAddress, getTransferApproveAddress. kind_neq. Qed.

End Addr.

Lemma lookup_single k a v :
  lookup k [(a, v)] = if String.eqb k a then Some v else None.
Proof. reflexivity. Qed.

Lemma lookup_self a v : lookup a [(a, v)] = Some v.
Proof. simpl. rewrite String.eqb_refl. reflexivity. Qed.

Lemma lookup_other k a v : k <> a -> lookup k [(a, v)] = None.
Proof. intro H. simpl. apply String.eqb_neq in H. rewrite H. reflexivity. Qed.

Lemma apply_writes_other ws st x :
  ~ In x (map fst ws) -> apply_writes ws st x = st x.
Proof.
  revert st. induction ws as [|[a v] ws IH]; intros st Hx; simpl in *; [reflexivity|].
  rewrite IH by tauto.
  destruct (String.eqb_spec x a); [subst; tauto | reflexivity].
Qed.

(** [absent (Some e)] only for the empty string. *)
Lemma absent_some e : absent (Some e) = true <-> e = "".
Proof.
  destruct e; simpl; split; intro H; try reflexivity; discriminate.
Qed.

(** JSON.parse fails on the empty text. *)
Lemma decode_empty : decode (Some "") = None.
Proof. reflexivity. Qed.

Lemma encode_nonempty o : exists s, encode o = String "{"%char s.
Proof. eexists. reflexivity. Qed.

End Basics.

(* ------------------------------------------------------------------ *)
(** ** The handlers *)

Module HandlerFacts.
Import Codec Ctx Handlers Basics.

Ltac step_m :=
  unfold decode_m, bind, get, set, throw, ret in *;
  cbn -[lookup getAssetAddress getTransferAddress getTransferAcknAddress
        getTransferApproveAddress getRegulatorAddress encode decode] in *.

Section Facts.
Variable sha512_hex : string -> string.

(** The accept rule reads only the acknowledgment address, so the
    transfer address is undefined in the returned mapping. *)
Lemma accept_rejected (asset signer : string) (c : ctx) :
  acceptTransfer sha512_hex asset signer c
  = (Err (InvalidTransaction "Asset is not being transfered"), c).
Proof.
  unfold acceptTransfer. step_m.
  rewrite lookup_other by apply transfer_neq_ackn. reflexivity.
Qed.

(** With no data at the transfer address, the reject rule fails in
    [decode] (JSON.parse of the empty text). *)
Lemma reject_empty_untyped (asset signer : string) (c : ctx) :
  store c (getTransferAddress sha512_hex asset) = "" ->
  rejectTransfer sha512_hex asset signer c = (Err (UntypedError "decode"), c).
Proof.
  intro H. unfold rejectTransfer. step_m.
  rewrite lookup_self, H. reflexivity.
Qed.

Lemma acknowledge_empty_rejected (asset signer : string) (c : ctx) :
  store c (getTransferAcknAddress sha512_hex asset) = "" ->
  acknowledgeTransfer sha512_hex asset signer c
  = (Err (InvalidTransaction "Asset is not being transfered"), c).
Proof.
  intro H. unfold acknowledgeTransfer. step_m.
  rewrite lookup_self, H. reflexivity.
Qed.

Ltac err_unchanged :=
  let H := fresh "H" in
  intro H;
  repeat match type of H with
  | context [decode ?d] => destruct (decode d); cbv beta iota zeta in H
  | context [if ?b then _ else _] => destruct b; cbv beta iota zeta in H
  | context [match ?x with _ => _ end] => destruct x; cbv beta iota zeta in H
  end;
  congruence.

Lemma create_err (asset owner : string) c e c' :
  createAsset sha512_hex asset owner c = (Err e, c') -> c' = c.
Proof. unfold createAsset. step_m. err_unchanged. Qed.

Lemma transfer_err (asset : string) owner signer c e c' :
  transferAsset sha512_hex asset owner signer c = (Err e, c') -> c' = c.
Proof. unfold transferAsset. step_m. err_unchanged. Qed.

Lemma acknowledge_err (asset signer : string) c e c' :
  acknowledgeTransfer sha512_hex asset signer c = (Err e, c') -> c' = c.
Proof. unfold acknowledgeTransfer. step_m. err_unchanged. Qed.

Lemma reject_err (asset signer : string) c e c' :
  rejectTransfer sha512_hex asset signer c = (Err e, c') -> c' = c.
Proof. unfold rejectTransfer. step_m. err_unchanged. Qed.

(** Claim C8. The accept rule (ApproveTransfer) never succeeds: it reads
    only the acknowledgment address, then finds no entry for the transfer
    address in the returned mapping and throws "Asset is not being
    transfered", in every state, for every asset and signer, leaving the
    context unchanged. *)
Theorem acceptTransfer_never_succeeds (asset signer : string) (c : ctx) :
  acceptTransfer sha512_hex asset signer c
  = (Err (InvalidTransaction "Asset is not being transfered"), c).
Proof. apply accept_rejected. Qed.

(** Claim C2 (amended). On an asset with all transfer slots empty,
    AcknowledgeTransfer and ApproveTransfer throw the validation error
    "Asset is not being transfered", while RejectTransfer, whose presence
    check is commented out, fails in [decode] with an untyped error; none
    of the three writes anything. *)
Theorem no_pending_transfer_failures (asset signer : string) (c : ctx) :
  store c (getTransferAddress sha512_hex asset) = "" ->
  store c (getTransferAcknAddress sha512_hex asset) = "" ->
  store c (getTransferApproveAddress sha512_hex asset) = "" ->
  acknowledgeTransfer sha512_hex asset signer c
    = (Err (InvalidTransaction "Asset is not being transfered"), c) /\
  acceptTransfer sha512_hex asset signer c
    = (Err (InvalidTransaction "Asset is not being transfered"), c) /\
  rejectTransfer sha512_hex asset signer c = (Err (UntypedError "decode"), c).
Proof.
  intros Ht Hk _. split; [|split].
  - apply acknowledge_empty_rejected; exact Hk.
  - apply accept_rejected.
  - apply reject_empty_untyped; exact Ht.
Qed.

(** Claim C10. Every rule, and the dispatcher, makes its single
    [state.set] call after all its reads and checks: whenever the promise
    fails, the context (ledger state and write log) is unchanged. *)
Theorem apply_error_leaves_state (p : payload) (signer : string) c e c' :
  apply sha512_hex p signer c = (Err e, c') -> c' = c.
Proof.
  unfold apply.
  destruct (String.eqb (action p) "create"); [apply create_err|].
  destruct (String.eqb (action p) "transfer"); [apply transfer_err|].
  destruct (String.eqb (action p) "acknowledge"); [apply acknowledge_err|].
  destruct (String.eqb (action p) "accept").
  { rewrite accept_rejected. intro H. inversion H. reflexivity. }
  destruct (String.eqb (action p) "reject"); [apply reject_err|].
  intro H. inversion H. reflexivity.
Qed.

Ltac neq_addr :=
  first [ apply transfer_neq_ackn | apply transfer_neq_approve
        | apply transfer_neq_asset | apply regulator_neq_ackn
        | apply ackn_neq_approve ].

Ltac ok_keeps :=
  let H := fresh "H" in
  intro H;
  repeat match type of H with
  | context [decode ?d] => destruct (decode d); cbv beta iota zeta in H
  | context [if ?b then _ else _] => destruct b; cbv beta iota zeta in H
  end;
  try discriminate H;
  injection H as _ <-; right; cbn;
  repeat match goal with
  | |- context [String.eqb ?x ?y] =>
      rewrite (proj2 (String.eqb_neq x y)) by neq_addr
  end;
  reflexivity.

(** No committed transaction changes a transfer (kind 10) address: the
    only rule writing there is the accept rule, which never succeeds, and
    the reject rule, which writes the empty value. *)
Lemma ok_keeps_transfer_slot p signer st r c' a :
  apply sha512_hex p signer (mkCtx st []) = (Ok r, c') ->
  store c' (getTransferAddress sha512_hex a) = "" \/
  store c' (getTransferAddress sha512_hex a) = st (getTransferAddress sha512_hex a).
Proof.
  unfold apply.
  destruct (String.eqb (action p) "create").
  { unfold createAsset. step_m. ok_keeps. }
  destruct (String.eqb (action p) "transfer").
  { unfold transferAsset. step_m. ok_keeps. }
  destruct (String.eqb (action p) "acknowledge").
  { unfold acknowledgeTransfer. step_m. ok_keeps. }
  destruct (String.eqb (action p) "accept").
  { rewrite accept_rejected. discriminate. }
  destruct (String.eqb (action p) "reject").
  { unfold rejectTransfer. step_m. intro H.
    repeat match type of H with
    | context [decode ?d] => destruct (decode d); cbv beta iota zeta in H
    | context [if ?b then _ else _] => destruct b; cbv beta iota zeta in H
    end; try discriminate H.
    injection H as _ <-. cbn.
    destruct (String.eqb_spec (getTransferAddress sha512_hex a)
                              (getTransferAddress sha512_hex (p_asset p))); auto. }
  discriminate.
Qed.

Lemma reachable_transfer_empty st :
  reachable sha512_hex st -> forall a, st (getTransferAddress sha512_hex a) = "".
Proof.
  induction 1 as [|st p signer r c' Hr IH Hok]; intro a; [reflexivity|].
  destruct (ok_keeps_transfer_slot p signer st r c' a Hok) as [E|E];
    rewrite E; auto.
Qed.

Lemma js_neq_true signer v : js_neq signer v = true <-> v <> Some signer.
Proof.
  destruct v as [s|]; simpl; [|split; congruence].
  destruct (String.eqb_spec signer s); simpl; split; congruence.
Qed.

(** Claim C9. In every state reachable from the empty state, no rule has
    left data at the transfer (kind 10) address of any asset, so the
    reject rule, which reads only that address, never finds a record: it
    fails in [decode] with an untyped error, before any write, so it never
    clears an offer held in the acknowledgment slot. *)
Theorem reject_never_finds_offer (st : string -> string)
    (Hr : reachable sha512_hex st) (asset signer : string) w :
  st (getTransferAddress sha512_hex asset) = "" /\
  rejectTransfer sha512_hex asset signer (mkCtx st w)
  = (Err (UntypedError "decode"), mkCtx st w).
Proof.
  pose proof (reachable_transfer_empty st Hr asset) as E.
  split; [exact E|]. apply reject_empty_untyped. exact E.
Qed.

(** Claim C4. When the acknowledgment slot holds a record whose owner is
    the signer, the acknowledge rule succeeds; its write-set clears the
    acknowledgment slot (empty value) and sets the approval slot to
    [{name: asset, owner: signer}]. *)
Theorem acknowledge_moves_offer_to_approval (asset signer : string) (c : ctx) r :
  decode (Some (store c (getTransferAcknAddress sha512_hex asset))) = Some r ->
  get_prop "owner" r = Some signer ->
  let ws := [(getTransferAcknAddress sha512_hex asset, "");
             (getTransferApproveAddress sha512_hex asset,
              encode [("name", Some asset); ("owner", Some signer)])] in
  acknowledgeTransfer sha512_hex asset signer c
  = (Ok (map fst ws), mkCtx (apply_writes ws (store c)) (writes c ++ ws)%list).
Proof.
  intros Hd Ho ws. unfold acknowledgeTransfer. step_m.
  rewrite lookup_self.
  destruct (store c (getTransferAcknAddress sha512_hex asset)) as [|ch rest] eqn:E;
    [discriminate Hd|].
  cbn -[decode encode getTransferAcknAddress getTransferApproveAddress getAssetAddress]. rewrite Hd. cbv beta iota. rewrite Ho. cbn. rewrite String.eqb_refl.
  reflexivity.
Qed.

(** Claim C6. OfferTransfer on an asset with no data fails with "Asset
    does not exist"; on an asset whose stored record has an owner other
    than the signer it fails with the not-owner error; in both cases the
    context is unchanged. *)
Theorem offer_by_non_owner_rejected (asset : string) (owner : option string)
    (signer : string) (c : ctx) :
  (store c (getAssetAddress sha512_hex asset) = "" ->
   transferAsset sha512_hex asset owner signer c
   = (Err (InvalidTransaction "Asset does not exist"), c)) /\
  (forall r, decode (Some (store c (getAssetAddress sha512_hex asset))) = Some r ->
   get_prop "owner" r <> Some signer ->
   transferAsset sha512_hex asset owner signer c
   = (Err (InvalidTransaction "Only an Asset's owner may transfer it"), c)).
Proof.
  split.
  - intro E. unfold transferAsset. step_m. rewrite lookup_self, E. reflexivity.
  - intros r Hd Ho. unfold transferAsset. step_m. rewrite lookup_self.
    destruct (store c (getAssetAddress sha512_hex asset)) as [|ch rest] eqn:E;
      [discriminate Hd|].
    cbn -[decode encode getTransferAcknAddress getTransferApproveAddress getAssetAddress]. rewrite Hd. cbv beta iota.
    rewrite (proj2 (js_neq_true signer (get_prop "owner" r)) Ho). reflexivity.
Qed.

End Facts.
End HandlerFacts.

(* ------------------------------------------------------------------ *)
(** ** The codec: canonical key order *)

Module CodecFacts.
Import Codec.

Lemma string_compare_trans s1 s2 s3 :
  String.compare s1 s2 <> Gt -> String.compare s2 s3 <> Gt ->
  String.compare s1 s3 <> Gt.
Proof.
  revert s2 s3.
  induction s1 as [|c1 s1 IH]; intros [|c2 s2] [|c3 s3]; simpl; try congruence.
  unfold Ascii.compare.
  destruct (N.compare_spec (N_of_ascii c1) (N_of_ascii c2)),
           (N.compare_spec (N_of_ascii c2) (N_of_ascii c3)),
           (N.compare_spec (N_of_ascii c1) (N_of_ascii c3));
    try lia; try congruence; eauto.
Qed.

Lemma key_le_trans a b c : key_le a b -> key_le b c -> key_le a c.
Proof.
  unfold key_le, String.leb.
  pose proof (string_compare_trans a b c) as T.
  destruct (String.compare a b), (String.compare b c), (String.compare a c);
    intuition congruence.
Qed.

Lemma key_le_total a b : key_le a b \/ key_le b a.
Proof. apply String.leb_total. Qed.

Lemma key_le_antisym a b : key_le a b -> key_le b a -> a = b.
Proof. apply String.leb_antisym. Qed.

Lemma insert_key_perm k l : Permutation (insert_key k l) (k :: l).
Proof.
  induction l as [|k' l IH]; simpl; [reflexivity|].
  destruct (String.leb k k'); [reflexivity|].
  rewrite IH. apply perm_swap.
Qed.

Lemma sort_keys_perm l : Permutation (sort_keys l) l.
Proof.
  induction l as [|k l IH]; simpl; [reflexivity|].
  rewrite insert_key_perm. apply perm_skip, IH.
Qed.

Lemma insert_key_hdrel y k l :
  HdRel key_le y l -> key_le y k -> HdRel key_le y (insert_key k l).
Proof.
  destruct l as [|k' l]; simpl; intros H Hk; [constructor; exact Hk|].
  destruct (String.leb k k'); constructor; [exact Hk|].
  inversion H; assumption.
Qed.

Lemma insert_key_sorted k l : Sorted key_le l -> Sorted key_le (insert_key k l).
Proof.
  induction l as [|k' l IH]; simpl; intro H; [repeat constructor|].
  destruct (String.leb k k') eqn:E.
  - constructor; [exact H | constructor; exact E].
  - inversion H; subst. constructor; [apply IH; assumption|].
    apply insert_key_hdrel; [assumption|].
    destruct (key_le_total k k') as [L|L]; [unfold key_le in L; rewrite L in E; discriminate | exact L].
Qed.

Lemma sort_keys_sorted l : Sorted key_le (sort_keys l).
Proof.
  induction l as [|k l IH]; simpl; [constructor|].
  apply insert_key_sorted, IH.
Qed.

(** Two sorted lists with the same elements are equal. *)
Lemma sorted_perm_eq l1 l2 :
  Sorted key_le l1 -> Sorted key_le l2 -> Permutation l1 l2 -> l1 = l2.
Proof.
  intros S1 S2. apply Sorted_StronglySorted in S1; [|exact key_le_trans].
  apply Sorted_StronglySorted in S2; [|exact key_le_trans].
  revert l2 S2. induction S1 as [|x l1 S1 IH F1]; intros l2 S2 P.
  - symmetry. apply Permutation_nil, P.
  - destruct S2 as [|y l2 S2 F2].
    + apply Permutation_sym, Permutation_nil in P. discriminate.
    + assert (x = y) as <-.
      { destruct (String.string_dec x y) as [|Ne]; [assumption|].
        assert (In x l2) as Hx.
        { destruct (Permutation_in x P (or_introl eq_refl)); [congruence | assumption]. }
        assert (In y l1) as Hy.
        { destruct (Permutation_in y (Permutation_sym P) (or_introl eq_refl));
            [congruence | assumption]. }
        apply key_le_antisym.
        - exact (proj1 (Forall_forall _ _) F1 y Hy).
        - exact (proj1 (Forall_forall _ _) F2 x Hx). }
      f_equal. apply IH; [exact S2|]. exact (Permutation_cons_inv P).
Qed.

Lemma sort_keys_perm_eq l1 l2 : Permutation l1 l2 -> sort_keys l1 = sort_keys l2.
Proof.
  intro P. apply sorted_perm_eq; try apply sort_keys_sorted.
  rewrite !sort_keys_perm. exact P.
Qed.

Lemma get_prop_perm k o1 o2 :
  NoDup (map fst o1) -> Permutation o1 o2 -> get_prop k o1 = get_prop k o2.
Proof.
  intros N P. revert N. induction P as [|[a v] o1 o2 P IH|[a v] [b w] o|o1 o2 o3 P1 IH1 P2 IH2];
    intro N; simpl.
  - reflexivity.
  - inversion N; subst. rewrite IH by assumption. reflexivity.
  - simpl in N. inversion N as [|? ? Nin]; subst.
    destruct (String.eqb_spec k b), (String.eqb_spec k a); subst; try reflexivity.
    exfalso. apply Nin. left. reflexivity.
  - rewrite IH1 by exact N. apply IH2.
    apply (Permutation_NoDup (Permutation_map fst P1) N).
Qed.


(** *** The round trip [decode (encode o)] *)

Lemma string_app_assoc (a b c : string) : (a ++ b) ++ c = a ++ (b ++ c).
Proof. induction a as [|x a IH]; simpl; [reflexivity | rewrite IH; reflexivity]. Qed.

Lemma string_app_nil (a : string) : a ++ "" = a.
Proof. induction a as [|x a IH]; simpl; [reflexivity | rewrite IH; reflexivity]. Qed.

(** JSON.parse reads back each escape that JSON.stringify writes. *)
Lemma parse_quote_char c t :
  parse_chars (quote_char c ++ t) = prepend (chr c) (parse_chars t).
Proof.
  destruct c as [b0 b1 b2 b3 b4 b5 b6 b7];
    destruct b0, b1, b2, b3, b4, b5, b6, b7; reflexivity.
Qed.

Lemma parse_quote_body s rest :
  parse_chars (quote_body s ++ rest) = Some (s, rest).
Proof.
  induction s as [|c s IH]; [reflexivity|].
  simpl. rewrite string_app_assoc, parse_quote_char, IH. reflexivity.
Qed.

Lemma as_obj_keys ps : map fst (as_obj ps) = map fst ps.
Proof. induction ps as [|[a b] ps IH]; simpl; congruence. Qed.

Lemma set_prop_fresh k v acc :
  ~ In k (map fst acc) -> set_prop k v acc = (acc ++ [(k, Some v)])%list.
Proof.
  induction acc as [|[k' v'] acc IH]; simpl; intro H; [reflexivity|].
  destruct (String.eqb_spec k k'); [subst; tauto|].
  rewrite IH by tauto. reflexivity.
Qed.

Lemma parse_member k v acc tail fuel :
  parse_members (S fuel) acc (mem_text k v ++ tail) =
  match skip_ws tail with
  | String c' s4 =>
    if is_char 44 c' then parse_members fuel (set_prop k v acc) (skip_ws s4)
    else if is_char 125 c' then Some (set_prop k v acc, s4)
    else None
  | EmptyString => None
  end.
Proof.
  unfold mem_text, quote. rewrite !string_app_assoc. simpl.
  rewrite parse_quote_body. simpl. rewrite parse_quote_body. reflexivity.
Qed.

Lemma members_text_first p ps :
  members_text (p :: ps) =
  match ps with
  | [] => mem_text (fst p) (snd p)
  | _ => mem_text (fst p) (snd p) ++ "," ++ members_text ps
  end.
Proof. destruct p, ps; reflexivity. Qed.

Lemma members_text_head p ps rest :
  exists t, members_text (p :: ps) ++ rest = String dq t.
Proof.
  rewrite members_text_first. destruct p as [k v].
  destruct ps; unfold mem_text, quote; simpl; eexists; reflexivity.
Qed.

Lemma parse_members_ok ps acc rest fuel :
  ps <> [] -> length ps <= fuel ->
  NoDup (map fst (as_obj ps)) ->
  (forall k, In k (map fst ps) -> ~ In k (map fst acc)) ->
  parse_members fuel acc (members_text ps ++ "}" ++ rest)
  = Some ((acc ++ as_obj ps)%list, rest).
Proof.
  revert acc fuel.
  induction ps as [|[k v] ps IH]; intros acc fuel Hne Hf Hnd Hfr; [congruence|].
  destruct fuel as [|fuel]; [simpl in Hf; lia|].
  simpl in Hnd. inversion Hnd as [|? ? Nin Nd]; subst.
  assert (~ In k (map fst acc)) as Hk by (apply Hfr; left; reflexivity).
  rewrite members_text_first. destruct ps as [|p2 ps].
  - rewrite parse_member. simpl. rewrite set_prop_fresh by exact Hk. reflexivity.
  - rewrite string_app_assoc, parse_member. simpl.
    destruct (members_text_head p2 ps (String "}"%char rest)) as [t Ht].
    rewrite Ht. simpl. rewrite <- Ht.
    change (String "}"%char rest) with ("}" ++ rest).
    rewrite IH.
    + rewrite set_prop_fresh by exact Hk. rewrite <- app_assoc. reflexivity.
    + discriminate.
    + simpl in Hf |- *. lia.
    + exact Nd.
    + intros k' Hin. rewrite set_prop_fresh by exact Hk.
      rewrite map_app. simpl. intro H. apply in_app_or in H as [H|[H|[]]].
      * exact (Hfr k' (or_intror Hin) H).
      * subst. apply Nin. rewrite as_obj_keys. exact Hin.
Qed.

Lemma string_length_app (a b : string) :
  String.length (a ++ b) = String.length a + String.length b.
Proof. induction a as [|x a IH]; simpl; [reflexivity | rewrite IH; reflexivity]. Qed.

Lemma members_text_length ps r :
  length ps <= String.length (members_text ps ++ r).
Proof.
  induction ps as [|p ps IH] in r |- *; [simpl; lia|].
  rewrite members_text_first. destruct p as [k v]. destruct ps as [|p2 ps].
  - unfold mem_text, quote. simpl. lia.
  - rewrite !string_app_assoc, string_length_app.
    cbn [String.append String.length length].
    specialize (IH r). cbn [length] in IH. lia.
Qed.

Lemma get_prop_self o :
  NoDup (map fst o) -> map (fun k => (k, get_prop k o)) (map fst o) = o.
Proof.
  induction o as [|[a v] o IH]; simpl; intro N; [reflexivity|].
  inversion N as [|? ? Nin N']; subst.
  rewrite String.eqb_refl. f_equal.
  transitivity (map (fun k => (k, get_prop k o)) (map fst o)); [|apply IH, N'].
  apply map_ext_in. intros k Hk.
  destruct (String.eqb_spec k a); [subst; contradiction | reflexivity].
Qed.

Lemma get_prop_defined o k :
  Forall (fun p => snd p <> None) o -> In k (map fst o) ->
  get_prop k o = Some (prop_val o k).
Proof.
  unfold prop_val. intros F Hk.
  assert (get_prop k o <> None) as D.
  { induction o as [|[a v] o IH]; simpl in *; [contradiction|].
    inversion F as [|? ? Hv F']; subst.
    destruct (String.eqb_spec k a); [exact Hv|].
    apply IH; [exact F' | destruct Hk; [congruence | assumption]]. }
  destruct (get_prop k o); [reflexivity | contradiction].
Qed.

Lemma in_sort_keys k l : In k (sort_keys l) -> In k l.
Proof. intro H. exact (Permutation_in k (sort_keys_perm l) H). Qed.

(** [encode] on a record as the rules store it. *)
Lemma encode_members o :
  valid_record o ->
  encode o = "{" ++ members_text (map (fun k => (k, prop_val o k))
                                       (sort_keys (map fst o))) ++ "}".
Proof.
  intros [_ F]. unfold encode, members_text. rewrite map_map.
  do 2 f_equal.
  assert (forall ks, (forall k, In k ks -> In k (map fst o)) ->
          flat_map (serialize_member o) ks = map (fun k => mem_text k (prop_val o k)) ks)
    as Hks.
  { induction ks as [|k ks IH]; intro Hin; [reflexivity|].
    simpl. unfold serialize_member at 1.
    rewrite get_prop_defined by (assumption || (apply Hin; left; reflexivity)).
    simpl. f_equal. apply IH. intros k' H'. apply Hin. right. exact H'. }
  rewrite Hks; [reflexivity|]. intros k Hk. apply in_sort_keys, Hk.
Qed.

Lemma as_obj_vals o ks :
  valid_record o -> (forall k, In k ks -> In k (map fst o)) ->
  as_obj (map (fun k => (k, prop_val o k)) ks) = map (fun k => (k, get_prop k o)) ks.
Proof.
  intros [_ F] Hin. unfold as_obj. rewrite map_map. apply map_ext_in.
  intros k Hk. rewrite get_prop_defined by auto. reflexivity.
Qed.

(** JSON.parse reads back what [encode] writes for a record as the rules
    store it: the record with its keys in sorted order. *)
Lemma decode_encode o :
  valid_record o ->
  decode (Some (encode o)) = Some (map (fun k => (k, get_prop k o)) (sort_keys (map fst o))).
Proof.
  intro V. rewrite encode_members by exact V.
  pose proof V as [N F].
  assert (Hsub : forall k, In k (sort_keys (map fst o)) -> In k (map fst o))
    by (intros k; apply in_sort_keys).
  rewrite <- (as_obj_vals o _ V Hsub).
  remember (map (fun k => (k, prop_val o k)) (sort_keys (map fst o))) as ps eqn:Eps.
  destruct ps as [|p ps'].
  - reflexivity.
  - destruct (members_text_head p ps' "}") as [t Ht].
    unfold decode, parse_object. cbn -[members_text].
    rewrite Ht. cbn -[members_text String.length parse_members]. rewrite <- Ht.
    rewrite <- (string_app_nil "}"), parse_members_ok.
    + reflexivity.
    + discriminate.
    + rewrite string_app_nil. apply members_text_length.
    + rewrite as_obj_keys, Eps, map_map. simpl. rewrite map_id.
      apply (Permutation_NoDup (Permutation_sym (sort_keys_perm _)) N).
    + intros k _ [].
Qed.

(** Equal up to order: same key-value pairs, hence same encoding. *)
Lemma encode_perm o1 o2 :
  NoDup (map fst o1) -> Permutation o1 o2 -> encode o1 = encode o2.
Proof.
  intros N P. unfold encode.
  rewrite (sort_keys_perm_eq (map fst o1) (map fst o2)) by (apply Permutation_map, P).
  do 3 f_equal. apply flat_map_ext. intro k. unfold serialize_member.
  rewrite (get_prop_perm k o1 o2 N P). reflexivity.
Qed.

Lemma decoded_perm o :
  NoDup (map fst o) ->
  Permutation (map (fun k => (k, get_prop k o)) (sort_keys (map fst o))) o.
Proof.
  intro N. rewrite <- (get_prop_self o N) at 2.
  apply Permutation_map, sort_keys_perm.
Qed.

(** Claim C3. For every record as the rules store it (distinct keys, all
    values strings), [decode (encode r)] succeeds and gives back the same
    key-value pairs (equal up to the order of properties, and equal as a
    list when the keys are already in sorted order, as for the records
    [{name, owner}] and [{asset, owner}] the rules write), and encoding the
    decoded record gives the same bytes again. *)
Theorem codec_roundtrip (r : obj) :
  valid_record r ->
  exists r', decode (Some (encode r)) = Some r' /\
             Permutation r' r /\
             (Sorted key_le (map fst r) -> r' = r) /\
             encode r' = encode r.
Proof.
  intro V. pose proof V as [N _].
  exists (map (fun k => (k, get_prop k r)) (sort_keys (map fst r))).
  split; [apply decode_encode, V|].
  split; [apply decoded_perm, N|].
  split.
  - intro S. rewrite (sorted_perm_eq (sort_keys (map fst r)) (map fst r)).
    + apply get_prop_self, N.
    + apply sort_keys_sorted.
    + exact S.
    + apply sort_keys_perm.
  - apply encode_perm; [|apply decoded_perm, N].
    apply (Permutation_NoDup (Permutation_map fst (Permutation_sym (decoded_perm r N))) N).
Qed.

(** Claim C7. Two records with the same key-value pairs in any order
    encode to the same bytes: [encode] serialises the members in the
    sorted order of the keys. *)
Theorem encode_canonical (o1 o2 : obj) :
  NoDup (map fst o1) -> Permutation o1 o2 ->
  encode o1 = encode o2 /\
  exists ks, Sorted key_le ks /\ Permutation ks (map fst o1) /\
    encode o1 = "{" ++ String.concat "," (flat_map (serialize_member o1) ks) ++ "}".
Proof.
  intros N P. split; [apply encode_perm; assumption|].
  exists (sort_keys (map fst o1)).
  split; [apply sort_keys_sorted|]. split; [apply sort_keys_perm | reflexivity].
Qed.

End CodecFacts.

(* ------------------------------------------------------------------ *)
(** ** Asset creation *)

Module CreateFacts.
Import Codec Ctx Handlers Basics HandlerFacts CodecFacts.

Section Create.
Variable sha512_hex : string -> string.

Lemma create_ok_store n A c r c1 :
  createAsset sha512_hex n A c = (Ok r, c1) ->
  store c1 (getAssetAddress sha512_hex n) = encode [("name", Some n); ("owner", Some A)].
Proof.
  unfold createAsset. step_m. rewrite lookup_self. intro H.
  destruct (store c (getAssetAddress sha512_hex n)); cbn in H; [|discriminate H].
  injection H as _ <-. cbn. rewrite String.eqb_refl. reflexivity.
Qed.

Lemma create_present_rejected n B c :
  store c (getAssetAddress sha512_hex n) <> "" ->
  createAsset sha512_hex n B c = (Err (InvalidTransaction "Asset name in use"), c).
Proof.
  intro H. unfold createAsset. step_m. rewrite lookup_self.
  destruct (store c (getAssetAddress sha512_hex n)); [contradiction | reflexivity].
Qed.

(** Claim C5. Once CreateAsset(n, A) has succeeded, CreateAsset(n, B)
    fails with "Asset name in use" without writing, and the stored record
    for [n] still decodes to owner [A]. *)
Theorem create_twice_rejected (n A B : string) (c c1 : ctx) r :
  createAsset sha512_hex n A c = (Ok r, c1) ->
  createAsset sha512_hex n B c1 = (Err (InvalidTransaction "Asset name in use"), c1) /\
  store c1 (getAssetAddress sha512_hex n) = encode [("name", Some n); ("owner", Some A)] /\
  option_map (get_prop "owner") (decode (Some (store c1 (getAssetAddress sha512_hex n))))
  = Some (Some A).
Proof.
  intro H. pose proof (create_ok_store n A c r c1 H) as E.
  split; [|split; [exact E|]].
  - apply create_present_rejected. rewrite E. discriminate.
  - rewrite E, decode_encode.
    + reflexivity.
    + split.
      * repeat constructor; simpl; intuition discriminate.
      * repeat constructor; discriminate.
Qed.

End Create.
End CreateFacts.

(* ------------------------------------------------------------------ *)
(** ** Further properties of the handlers *)

Module MoreFacts.
Import Codec Ctx Handlers Commits Basics HandlerFacts CodecFacts CreateFacts.

Section More.
Variable sha512_hex : string -> string.

(** *** Address layout *)

Lemma substring_length n s :
  n <= String.length s -> String.length (substring 0 n s) = n.
Proof.
  revert s. induction n as [|n IH]; intros [|c s] H; simpl in *; try lia.
  rewrite IH; lia.
Qed.

(** Every address of the six kinds is 70 characters long (6 of namespace,
    2 of kind, 62 of digest), given a digest of at least 62 characters
    (a hex SHA-512 digest has 128). *)
Theorem address_length (Hd : forall k, 62 <= String.length (sha512_hex k)) (k : string) :
  String.length (getAssetAddress sha512_hex k) = 70 /\
  String.length (getTransferAddress sha512_hex k) = 70 /\
  String.length (getTransferAcknAddress sha512_hex k) = 70 /\
  String.length (getTransferApproveAddress sha512_hex k) = 70 /\
  String.length (getRegulatorAddress sha512_hex k) = 70 /\
  String.length (getParticipantAddress sha512_hex k) = 70.
Proof.
  assert (P : String.length (PREFIX sha512_hex) = 6).
  { unfold PREFIX, getAddress. apply substring_length. specialize (Hd FAMILY). lia. }
  assert (G : String.length (getAddress sha512_hex k 62) = 62).
  { unfold getAddress. apply substring_length, Hd. }
  unfold getAssetAddress, getTransferAddress, getTransferAcknAddress,
    getTransferApproveAddress, getRegulatorAddress, getParticipantAddress.
  rewrite !string_length_app, P. simpl. rewrite G.
  repeat split.
Qed.

(** Addresses of different kinds never coincide, whatever the keys and
    whatever the digest: the two kind characters after the shared
    namespace prefix differ. *)
Theorem address_kinds_disjoint (k1 k2 k3 k4 k5 k6 : string) :
  NoDup [getAssetAddress sha512_hex k1; getTransferAddress sha512_hex k2;
         getTransferAcknAddress sha512_hex k3; getTransferApproveAddress sha512_hex k4;
         getRegulatorAddress sha512_hex k5; getParticipantAddress sha512_hex k6].
Proof.
  unfold getAssetAddress, getTransferAddress, getTransferAcknAddress,
    getTransferApproveAddress, getRegulatorAddress, getParticipantAddress.
  repeat constructor; simpl;
    let H := fresh in intro H; repeat destruct H as [H|H]; try contradiction;
    revert H; kind_neq.
Qed.

(** *** The write-set of a committed transaction *)

Lemma asset_neq_ackn a b :
  getAssetAddress sha512_hex a <> getTransferAcknAddress sha512_hex b.
Proof. unfold getAssetAddress, getTransferAcknAddress. kind_neq. Qed.

Lemma asset_neq_approve a b :
  getAssetAddress sha512_hex a <> getTransferApproveAddress sha512_hex b.
Proof. unfold getAssetAddress, getTransferApproveAddress. kind_neq. Qed.

Ltac ok_shape :=
  let H := fresh "H" in
  intro H;
  repeat match type of H with
  | context [decode ?d] => destruct (decode d); cbv beta iota zeta in H
  | context [if ?b then _ else _] => destruct b eqn:?; cbv beta iota zeta in H
  end;
  try discriminate H;
  injection H as _ <-.

Ltac present_slot :=
  let Ez := fresh "Ez" in
  intro Ez;
  match goal with
  | Hb : absent _ = false |- _ => rewrite lookup_self, Ez in Hb; discriminate Hb
  end.

(** A transaction that resolves wrote one of the [committed_writes]
    shapes, in a single [state.set]. *)
Lemma apply_ok_inv p signer st w r c' :
  apply sha512_hex p signer (mkCtx st w) = (Ok r, c') ->
  exists ws, committed_writes sha512_hex st ws /\
             c' = mkCtx (apply_writes ws st) (w ++ ws)%list.
Proof.
  unfold apply.
  destruct (String.eqb (action p) "create").
  { unfold createAsset. step_m. rewrite lookup_self. intro H.
    destruct (st (getAssetAddress sha512_hex (p_asset p))) eqn:E; cbn in H;
      [|discriminate H].
    injection H as _ <-. eexists. split; [apply cw_create; exact E | reflexivity]. }
  destruct (String.eqb (action p) "transfer").
  { unfold transferAsset. step_m. ok_shape.
    eexists. split; [apply cw_offer; present_slot | reflexivity]. }
  destruct (String.eqb (action p) "acknowledge").
  { unfold acknowledgeTransfer. step_m. ok_shape.
    eexists. split; [apply cw_acknowledge; present_slot | reflexivity]. }
  destruct (String.eqb (action p) "accept").
  { rewrite accept_rejected. discriminate. }
  destruct (String.eqb (action p) "reject").
  { unfold rejectTransfer. step_m. ok_shape.
    eexists. split; [apply cw_reject | reflexivity]. }
  discriminate.
Qed.

Lemma prefix_app (p x : string) : String.prefix p (p ++ x) = true.
Proof.
  induction p as [|c p IH]; [destruct x; reflexivity|].
  simpl. destruct (ascii_dec c c); [exact IH | contradiction].
Qed.

(** Every write of a committed transaction lies in the namespace the
    handler registers with the validator ([PREFIX]). *)
Theorem writes_within_namespace p signer st w r c' :
  apply sha512_hex p signer (mkCtx st w) = (Ok r, c') ->
  exists ws, writes c' = (w ++ ws)%list /\
    Forall (fun aw => exists ns, In ns (namespaces (JSONHandler_registration sha512_hex)) /\
                                 String.prefix ns (fst aw) = true) ws.
Proof.
  intro H. destruct (apply_ok_inv p signer st w r c' H) as [ws [Hw ->]].
  exists ws. split; [reflexivity|].
  destruct Hw; repeat constructor; exists (PREFIX sha512_hex);
    (split; [left; reflexivity | apply prefix_app]).
Qed.

(** *** What committed transactions never change *)

Ltac upd_cases :=
  cbn [apply_writes fold_left];
  repeat match goal with
  | |- context [String.eqb ?x ?y] => destruct (String.eqb_spec x y)
  end.

(** Once an asset record exists, no transaction changes it: creation of
    the same address fails, and no other rule writes an asset address
    (the accept rule, the only one meant to, never succeeds). *)
Theorem asset_record_immutable p signer st w r c' a :
  apply sha512_hex p signer (mkCtx st w) = (Ok r, c') ->
  st (getAssetAddress sha512_hex a) <> "" ->
  store c' (getAssetAddress sha512_hex a) = st (getAssetAddress sha512_hex a).
Proof.
  intros H Hne. destruct (apply_ok_inv p signer st w r c' H) as [ws [Hw ->]].
  simpl. destruct Hw; upd_cases; try reflexivity.
  - rewrite e in Hne. contradiction.
  - exfalso. eapply asset_neq_ackn; eassumption.
  - exfalso. eapply asset_neq_approve; eassumption.
  - exfalso. eapply asset_neq_ackn; eassumption.
  - exfalso. apply (transfer_neq_asset sha512_hex n a). symmetry. assumption.
Qed.

(** A pending approval is never cleared: no committed transaction leaves
    an approval address without data once it has some (the accept rule,
    the only one that would clear it, never succeeds). *)
Theorem approval_never_cleared p signer st w r c' a :
  apply sha512_hex p signer (mkCtx st w) = (Ok r, c') ->
  st (getTransferApproveAddress sha512_hex a) <> "" ->
  store c' (getTransferApproveAddress sha512_hex a) <> "".
Proof.
  intros H Hne. destruct (apply_ok_inv p signer st w r c' H) as [ws [Hw ->]].
  simpl. destruct Hw; upd_cases; try assumption.
  - exfalso. eapply asset_neq_approve. symmetry. eassumption.
  - exfalso. eapply ackn_neq_approve. symmetry. eassumption.
  - unfold encode. discriminate.
  - exfalso. eapply ackn_neq_approve. symmetry. eassumption.
  - exfalso. eapply transfer_neq_approve. symmetry. eassumption.
Qed.

(** *** Success and error paths of the rules *)

Lemma create_succeeds n o c :
  store c (getAssetAddress sha512_hex n) = "" ->
  let ws := [(getAssetAddress sha512_hex n, encode [("name", Some n); ("owner", Some o)])] in
  createAsset sha512_hex n o c
  = (Ok (map fst ws), mkCtx (apply_writes ws (store c)) (writes c ++ ws)%list).
Proof.
  intros E ws. unfold createAsset. step_m. rewrite lookup_self, E. reflexivity.
Qed.

Lemma transfer_succeeds a ow signer c r :
  decode (Some (store c (getAssetAddress sha512_hex a))) = Some r ->
  get_prop "owner" r = Some signer ->
  let ws := [(getTransferAcknAddress sha512_hex a, encode [("asset", Some a); ("owner", ow)])] in
  transferAsset sha512_hex a ow signer c
  = (Ok (map fst ws), mkCtx (apply_writes ws (store c)) (writes c ++ ws)%list).
Proof.
  intros Hd Ho ws. unfold transferAsset. step_m. rewrite lookup_self.
  destruct (store c (getAssetAddress sha512_hex a)) as [|ch rest] eqn:E;
    [discriminate Hd|].
  cbn -[decode encode getTransferAcknAddress getTransferApproveAddress getAssetAddress].
  rewrite Hd. cbv beta iota. rewrite Ho. cbn. rewrite String.eqb_refl. reflexivity.
Qed.

Lemma acknowledge_succeeds a signer c r :
  decode (Some (store c (getTransferAcknAddress sha512_hex a))) = Some r ->
  get_prop "owner" r = Some signer ->
  let ws := [(getTransferAcknAddress sha512_hex a, "");
             (getTransferApproveAddress sha512_hex a,
              encode [("name", Some a); ("owner", Some signer)])] in
  acknowledgeTransfer sha512_hex a signer c
  = (Ok (map fst ws), mkCtx (apply_writes ws (store c)) (writes c ++ ws)%list).
Proof.
  intros Hd Ho ws. unfold acknowledgeTransfer. step_m. rewrite lookup_self.
  destruct (store c (getTransferAcknAddress sha512_hex a)) as [|ch rest] eqn:E;
    [discriminate Hd|].
  cbn -[decode encode getTransferAcknAddress getTransferApproveAddress getAssetAddress].
  rewrite Hd. cbv beta iota. rewrite Ho. cbn. rewrite String.eqb_refl. reflexivity.
Qed.

(** CreateAsset on a name whose address has no data succeeds and writes
    exactly one value: the record [{name, owner: signer}] at the asset
    address. *)
Theorem create_writes_record (n signer : string) (c : ctx) :
  store c (getAssetAddress sha512_hex n) = "" ->
  let ws := [(getAssetAddress sha512_hex n, encode [("name", Some n); ("owner", Some signer)])] in
  createAsset sha512_hex n signer c
  = (Ok (map fst ws), mkCtx (apply_writes ws (store c)) (writes c ++ ws)%list).
Proof. apply create_succeeds. Qed.

(** OfferTransfer by the asset's owner succeeds and writes exactly one
    value, [{asset, owner: newOwner}] at the acknowledgment address,
    replacing any offer pending there; the transfer address it computes
    is not written. *)
Theorem offer_by_owner_writes_ackn_slot (a : string) (newOwner : option string)
    (signer : string) (c : ctx) r :
  decode (Some (store c (getAssetAddress sha512_hex a))) = Some r ->
  get_prop "owner" r = Some signer ->
  let ws := [(getTransferAcknAddress sha512_hex a,
              encode [("asset", Some a); ("owner", newOwner)])] in
  transferAsset sha512_hex a newOwner signer c
  = (Ok (map fst ws), mkCtx (apply_writes ws (store c)) (writes c ++ ws)%list).
Proof. apply transfer_succeeds. Qed.

(** AcknowledgeTransfer by anyone other than the owner recorded in the
    acknowledgment slot fails with "Transfers can only be acknowledged by
    the new buyer" and leaves the context (slot included) unchanged. *)
Theorem acknowledge_by_other_rejected (a signer : string) (c : ctx) r :
  decode (Some (store c (getTransferAcknAddress sha512_hex a))) = Some r ->
  get_prop "owner" r <> Some signer ->
  acknowledgeTransfer sha512_hex a signer c
  = (Err (InvalidTransaction "Transfers can only be acknowledged by the new buyer"), c).
Proof.
  intros Hd Ho. unfold acknowledgeTransfer. step_m. rewrite lookup_self.
  destruct (store c (getTransferAcknAddress sha512_hex a)) as [|ch rest] eqn:E;
    [discriminate Hd|].
  cbn -[decode encode getTransferAcknAddress getTransferApproveAddress getAssetAddress].
  rewrite Hd. cbv beta iota.
  rewrite (proj2 (js_neq_true signer (get_prop "owner" r)) Ho). reflexivity.
Qed.

(** RejectTransfer, when the transfer address holds a record, succeeds
    for that record's owner and writes exactly one value: the empty value
    at the transfer address; for any other signer it fails with "Transfers
    can only be rejected by the potential new owner" without writing. *)
Theorem reject_with_record (a signer : string) (c : ctx) r :
  decode (Some (store c (getTransferAddress sha512_hex a))) = Some r ->
  (get_prop "owner" r = Some signer ->
   rejectTransfer sha512_hex a signer c
   = (Ok [getTransferAddress sha512_hex a],
      mkCtx (apply_writes [(getTransferAddress sha512_hex a, "")] (store c))
            (writes c ++ [(getTransferAddress sha512_hex a, "")])%list)) /\
  (get_prop "owner" r <> Some signer ->
   rejectTransfer sha512_hex a signer c
   = (Err (InvalidTransaction "Transfers can only be rejected by the potential new owner"), c)).
Proof.
  intro Hd. split; intro Ho; unfold rejectTransfer; step_m; rewrite lookup_self, Hd;
    cbv beta iota.
  - rewrite Ho. cbn. rewrite String.eqb_refl. reflexivity.
  - rewrite (proj2 (js_neq_true signer (get_prop "owner" r)) Ho). reflexivity.
Qed.

(** *** Records as the rules write them *)

Lemma decode_name_record n o :
  decode (Some (encode [("name", Some n); ("owner", Some o)]))
  = Some [("name", Some n); ("owner", Some o)].
Proof.
  rewrite decode_encode; [reflexivity|].
  split; [repeat constructor; simpl; intuition discriminate | repeat constructor; discriminate].
Qed.

(** An offer written without an [owner] in the payload is serialised
    without that member. *)
Lemma encode_offer_undefined a :
  encode [("asset", Some a); ("owner", None)] = encode [("asset", Some a)].
Proof. reflexivity. Qed.

Lemma decode_offer_record a ow :
  decode (Some (encode [("asset", Some a); ("owner", ow)]))
  = Some (match ow with
          | Some o => [("asset", Some a); ("owner", Some o)]
          | None => [("asset", Some a)]
          end).
Proof.
  destruct ow as [o|].
  - rewrite decode_encode; [reflexivity|].
    split; [repeat constructor; simpl; intuition discriminate
           | repeat constructor; discriminate].
  - rewrite encode_offer_undefined, decode_encode; [reflexivity|].
    split; repeat constructor; [simpl; tauto | discriminate].
Qed.

(** An offer made with no [owner] in the payload can never be
    acknowledged: the stored offer has no owner member, and every
    signer's AcknowledgeTransfer fails with "Transfers can only be
    acknowledged by the new buyer". *)
Theorem offer_without_owner_unacknowledgeable (a owner : string) (c c1 : ctx) r
    (signer : string) :
  transferAsset sha512_hex a None owner c = (Ok r, c1) ->
  acknowledgeTransfer sha512_hex a signer c1
  = (Err (InvalidTransaction "Transfers can only be acknowledged by the new buyer"), c1).
Proof.
  unfold transferAsset. step_m. ok_shape.
  unfold acknowledgeTransfer. step_m. rewrite lookup_self.
  cbn -[decode encode getTransferAcknAddress getTransferApproveAddress getAssetAddress].
  rewrite String.eqb_refl. rewrite decode_offer_record. reflexivity.
Qed.

(** *** A whole transfer, through the dispatcher *)

Lemma apply_create a ow signer :
  apply sha512_hex (mkPayload "create" a ow) signer = createAsset sha512_hex a signer.
Proof. reflexivity. Qed.

Lemma apply_transfer a ow signer :
  apply sha512_hex (mkPayload "transfer" a ow) signer = transferAsset sha512_hex a ow signer.
Proof. reflexivity. Qed.

Lemma apply_acknowledge a ow signer :
  apply sha512_hex (mkPayload "acknowledge" a ow) signer
  = acknowledgeTransfer sha512_hex a signer.
Proof. reflexivity. Qed.

Lemma apply_accept a ow signer :
  apply sha512_hex (mkPayload "accept" a ow) signer = acceptTransfer sha512_hex a signer.
Proof. reflexivity. Qed.

Ltac addr_absurd :=
  exfalso; first
  [ match goal with H : ?x <> ?x |- _ => exact (H eq_refl) end
  | eapply asset_neq_ackn; eassumption
  | eapply asset_neq_ackn; symmetry; eassumption
  | eapply asset_neq_approve; eassumption
  | eapply asset_neq_approve; symmetry; eassumption
  | eapply ackn_neq_approve; eassumption
  | eapply ackn_neq_approve; symmetry; eassumption ].

Ltac slot_value :=
  cbn [store apply_writes fold_left];
  repeat match goal with
  | |- context [String.eqb ?x ?y] => destruct (String.eqb_spec x y)
  end;
  first [reflexivity | addr_absurd].

(** The lifecycle the rules implement: from a state where the asset name
    is free, [create] by A, then [transfer] to B signed by A, then
    [acknowledge] signed by B all succeed; afterwards the asset record
    still names A as owner, the acknowledgment slot is empty, the approval
    slot holds [{name, owner: B}], and [accept] by anyone fails with
    "Asset is not being transfered". *)
Theorem lifecycle_create_offer_acknowledge (a A B R : string) st w :
  st (getAssetAddress sha512_hex a) = "" ->
  exists r1 c1 r2 c2 r3 c3,
    apply sha512_hex (mkPayload "create" a None) A (mkCtx st w) = (Ok r1, c1) /\
    apply sha512_hex (mkPayload "transfer" a (Some B)) A c1 = (Ok r2, c2) /\
    apply sha512_hex (mkPayload "acknowledge" a None) B c2 = (Ok r3, c3) /\
    store c3 (getAssetAddress sha512_hex a)
      = encode [("name", Some a); ("owner", Some A)] /\
    store c3 (getTransferAcknAddress sha512_hex a) = "" /\
    store c3 (getTransferApproveAddress sha512_hex a)
      = encode [("name", Some a); ("owner", Some B)] /\
    apply sha512_hex (mkPayload "accept" a None) R c3
      = (Err (InvalidTransaction "Asset is not being transfered"), c3).
Proof.
  intro E. do 6 eexists.
  split. { rewrite apply_create. apply create_succeeds. exact E. }
  split.
  { rewrite apply_transfer.
    apply (transfer_succeeds a (Some B) A _ [("name", Some a); ("owner", Some A)]).
    - cbn [store apply_writes fold_left]. rewrite String.eqb_refl.
      apply decode_name_record.
    - reflexivity. }
  split.
  { rewrite apply_acknowledge.
    apply (acknowledge_succeeds a B _ [("asset", Some a); ("owner", Some B)]).
    - cbn [store apply_writes fold_left]. rewrite String.eqb_refl.
      apply decode_offer_record.
    - reflexivity. }
  split; [slot_value|]. split; [slot_value|]. split; [slot_value|].
  rewrite apply_accept. apply accept_rejected.
Qed.

(** *** No decode failure in reachable states *)




(** *** Codec *)

(** The JSON string quoting of [JSON.stringify] is undone by the string
    parser of [JSON.parse], whatever text follows the closing quote. *)
Theorem quote_parse_roundtrip (s rest : string) :
  parse_string (quote s ++ rest) = Some (s, rest).
Proof. exact (parse_quote_body s rest). Qed.

(** [encode] identifies records only up to member order: two valid
    records with the same encoding hold the same members. *)
Theorem encode_injective_up_to_order (o1 o2 : obj) :
  valid_record o1 -> valid_record o2 -> encode o1 = encode o2 -> Permutation o1 o2.
Proof.
  intros V1 V2 E.
  pose proof (decode_encode o1 V1) as D1. pose proof (decode_encode o2 V2) as D2.
  rewrite E, D2 in D1. injection D1 as D.
  eapply perm_trans; [apply Permutation_sym, decoded_perm, (proj1 V1)|].
  rewrite <- D. apply decoded_perm, (proj1 V2).
Qed.

(** *** Dispatcher errors and repeated acknowledgments *)


(** An offer is acknowledged at most once: after a successful
    AcknowledgeTransfer, a second one for the same asset, by any signer,
    fails with "Asset is not being transfered". *)
Theorem acknowledge_only_once (a signer signer' : string) (c c1 : ctx) r :
  acknowledgeTransfer sha512_hex a signer c = (Ok r, c1) ->
  acknowledgeTransfer sha512_hex a signer' c1
  = (Err (InvalidTransaction "Asset is not being transfered"), c1).
Proof.
  unfold acknowledgeTransfer at 1. step_m. ok_shape.
  apply acknowledge_empty_rejected. slot_value.
Qed.

(** *** Offers and approvals only exist for created assets *)

Lemma ackn_same_key a n :
  getTransferAcknAddress sha512_hex a = getTransferAcknAddress sha512_hex n ->
  getAssetAddress sha512_hex a = getAssetAddress sha512_hex n.
Proof.
  unfold getTransferAcknAddress, getAssetAddress. intro E.
  apply append_cancel_l in E. injection E as E. rewrite E. reflexivity.
Qed.

Lemma approve_same_key a n :
  getTransferApproveAddress sha512_hex a = getTransferApproveAddress sha512_hex n ->
  getAssetAddress sha512_hex a = getAssetAddress sha512_hex n.
Proof.
  unfold getTransferApproveAddress, getAssetAddress. intro E.
  apply append_cancel_l in E. injection E as E. rewrite E. reflexivity.
Qed.

Lemma encode_not_empty o : encode o <> "".
Proof. unfold encode. discriminate. Qed.

(** In every state reachable from the empty state, an asset with a
    pending offer or a pending approval has an asset record: the offer
    rule requires the record, the acknowledgment rule requires the offer,
    and no rule clears an asset record. *)
Theorem offers_only_for_created_assets st :
  reachable sha512_hex st ->
  forall a,
    (st (getTransferAcknAddress sha512_hex a) <> "" ->
     st (getAssetAddress sha512_hex a) <> "") /\
    (st (getTransferApproveAddress sha512_hex a) <> "" ->
     st (getAssetAddress sha512_hex a) <> "").
Proof.
  induction 1 as [|st p signer r c' R IH H].
  - intro a. split; intro Hne; contradiction Hne; reflexivity.
  - destruct (apply_ok_inv p signer st [] r c' H) as [ws [Hw ->]].
    cbn [store]. intro a.
    destruct Hw as [n o Hn|n ow Hn|n o Hn|n]; cbn [apply_writes fold_left];
      split; intro Hne;
      repeat match goal with
      | |- context [String.eqb ?x ?y] => destruct (String.eqb_spec x y)
      | H : context [String.eqb ?x ?y] |- _ => destruct (String.eqb_spec x y)
      end;
      try addr_absurd; try apply encode_not_empty;
      try exact Hne; try (contradiction Hne; reflexivity);
      try (apply (proj1 (IH a)); assumption);
      try (apply (proj2 (IH a)); assumption).
    + rewrite (ackn_same_key a n) by assumption. exact Hn.
    + rewrite (approve_same_key a n) by assumption.
      apply (proj1 (IH n)); exact Hn.
    + exfalso. eapply transfer_neq_asset. symmetry. eassumption.
    + exfalso. eapply transfer_neq_asset. symmetry. eassumption.
Qed.

End More.
End MoreFacts.

(* ------------------------------------------------------------------ *)
(** ** Evaluations on the concrete runs *)

Module Runs.
Import Codec Ctx Handlers Commits Basics HandlerFacts CodecFacts CreateFacts MoreFacts Examples.

Lemma reach_tx st p signer r :
  reachable h0 st ->
  fst (apply h0 p signer (mkCtx st [])) = Ok r ->
  reachable h0 (run_tx st p signer).
Proof.
  intros Hr Hok. unfold run_tx.
  destruct (apply h0 p signer (mkCtx st [])) as [res c'] eqn:E.
  simpl in Hok. subst res. exact (reach_step h0 st p signer r c' Hr E).
Qed.

Lemma reachable_offered : reachable h0 st_offered.
Proof.
  unfold st_offered.
  apply (reach_tx _ _ _ [getTransferAcknAddress h0 "widget"]);
    [|vm_compute; reflexivity].
  unfold st_created.
  apply (reach_tx _ _ _ [getAssetAddress h0 "widget"]);
    [apply reach_init | vm_compute; reflexivity].
Qed.

(** Claim C1 at the spec's end-to-end state: the approval slot holds
    [{name: widget, owner: bob}] and "regulator1" is a registered
    regulator, yet ApproveTransfer by "regulator1" throws "Asset is not
    being transfered" and writes nothing; Asset["widget"] keeps owner
    "alice". *)
Theorem approve_at_end_to_end_state_fails :
  decode (Some (st_regulated (getTransferApproveAddress h0 "widget")))
    = Some [("name", Some "widget"); ("owner", Some "bob")] /\
  st_regulated (getRegulatorAddress h0 "regulator1") <> "" /\
  acceptTransfer h0 "widget" "regulator1" (mkCtx st_regulated [])
    = (Err (InvalidTransaction "Asset is not being transfered"), mkCtx st_regulated []) /\
  decode (Some (st_regulated (getAssetAddress h0 "widget"))) = Some record_widget_alice.
Proof.
  split; [vm_compute; reflexivity|].
  split; [vm_compute; discriminate|].
  split; [vm_compute; reflexivity | vm_compute; reflexivity].
Qed.

(** Claim C2, counterexample: on the empty ledger, RejectTransfer on
    "widget" by "bob" does not fail with a validation error. *)
Lemma reject_without_offer_not_validation_error :
  ~ (exists msg, rejectTransfer h0 "widget" "bob" c_empty
                 = (Err (InvalidTransaction msg), c_empty)).
Proof. intros [msg H]. vm_compute in H. discriminate H. Qed.

(** Witness of claim C2 (amended) on the empty ledger. *)
Lemma no_pending_transfer_failures_witness :
  acknowledgeTransfer h0 "widget" "bob" c_empty
    = (Err (InvalidTransaction "Asset is not being transfered"), c_empty) /\
  acceptTransfer h0 "widget" "bob" c_empty
    = (Err (InvalidTransaction "Asset is not being transfered"), c_empty) /\
  rejectTransfer h0 "widget" "bob" c_empty = (Err (UntypedError "decode"), c_empty).
Proof.
  apply (no_pending_transfer_failures h0 "widget" "bob" c_empty);
    vm_compute; reflexivity.
Defined.

(** Witness of claim C3 on a record whose keys are not in sorted order. *)
Lemma codec_roundtrip_witness :
  exists r', decode (Some (encode record_unsorted)) = Some r' /\
             Permutation r' record_unsorted /\
             (Sorted key_le (map fst record_unsorted) -> r' = record_unsorted) /\
             encode r' = encode record_unsorted.
Proof.
  apply (codec_roundtrip record_unsorted).
  split; repeat constructor; simpl; intuition discriminate.
Defined.

(** Witness of claim C4 after the offer of "widget" to "bob". *)
Lemma acknowledge_moves_offer_to_approval_witness :
  let ws := [(getTransferAcknAddress h0 "widget", "");
             (getTransferApproveAddress h0 "widget",
              encode [("name", Some "widget"); ("owner", Some "bob")])] in
  acknowledgeTransfer h0 "widget" "bob" (mkCtx st_offered [])
  = (Ok (map fst ws), mkCtx (apply_writes ws st_offered) ([] ++ ws)%list).
Proof.
  apply (acknowledge_moves_offer_to_approval h0 "widget" "bob" (mkCtx st_offered [])
           offer_widget_bob); vm_compute; reflexivity.
Defined.

(** Witness of claim C5: "widget" created by "alice", then by "bob". *)
Lemma create_twice_rejected_witness :
  let c1 := snd (createAsset h0 "widget" "alice" c_empty) in
  createAsset h0 "widget" "bob" c1 = (Err (InvalidTransaction "Asset name in use"), c1) /\
  store c1 (getAssetAddress h0 "widget")
    = encode [("name", Some "widget"); ("owner", Some "alice")] /\
  option_map (get_prop "owner") (decode (Some (store c1 (getAssetAddress h0 "widget"))))
    = Some (Some "alice").
Proof.
  apply (create_twice_rejected h0 "widget" "alice" "bob" c_empty
           (snd (createAsset h0 "widget" "alice" c_empty)) [getAssetAddress h0 "widget"]).
  vm_compute. reflexivity.
Defined.

(** Witness of claim C6: no asset yet, then an offer by "mallory" of
    alice's asset. *)
Lemma offer_by_non_owner_rejected_witness :
  transferAsset h0 "widget" (Some "bob") "alice" c_empty
    = (Err (InvalidTransaction "Asset does not exist"), c_empty) /\
  transferAsset h0 "widget" (Some "bob") "mallory" (mkCtx st_created [])
    = (Err (InvalidTransaction "Only an Asset's owner may transfer it"), mkCtx st_created []).
Proof.
  split.
  - apply (proj1 (offer_by_non_owner_rejected h0 "widget" (Some "bob") "alice" c_empty)).
    vm_compute. reflexivity.
  - apply (proj2 (offer_by_non_owner_rejected h0 "widget" (Some "bob") "mallory"
                    (mkCtx st_created [])) record_widget_alice).
    + vm_compute. reflexivity.
    + vm_compute. discriminate.
Defined.

(** Witness of claim C7: the same record with its two members swapped. *)
Lemma encode_canonical_witness :
  encode record_unsorted = encode (rev record_unsorted) /\
  exists ks, Sorted key_le ks /\ Permutation ks (map fst record_unsorted) /\
    encode record_unsorted
    = "{" ++ String.concat "," (flat_map (serialize_member record_unsorted) ks) ++ "}".
Proof.
  apply (encode_canonical record_unsorted (rev record_unsorted)).
  - repeat constructor; simpl; intuition discriminate.
  - apply perm_swap.
Defined.

(** Witness of claim C9 in the state where "widget" is offered to "bob". *)
Lemma reject_never_finds_offer_witness :
  st_offered (getTransferAddress h0 "widget") = "" /\
  rejectTransfer h0 "widget" "bob" (mkCtx st_offered [])
  = (Err (UntypedError "decode"), mkCtx st_offered []).
Proof.
  apply (reject_never_finds_offer h0 st_offered reachable_offered "widget" "bob" []).
Defined.

(** Witness of claim C10: an offer by a non-owner. *)
Lemma apply_error_leaves_state_witness :
  apply h0 (mkPayload "transfer" "widget" (Some "bob")) "mallory" (mkCtx st_created [])
    = (Err (InvalidTransaction "Only an Asset's owner may transfer it"), mkCtx st_created []) /\
  mkCtx st_created [] = mkCtx st_created [].
Proof.
  split; [vm_compute; reflexivity|].
  apply (apply_error_leaves_state h0 (mkPayload "transfer" "widget" (Some "bob")) "mallory"
           (mkCtx st_created []) (InvalidTransaction "Only an Asset's owner may transfer it")).
  vm_compute. reflexivity.
Defined.

(** *** Witnesses of the further properties *)

Lemma address_length_witness :
  String.length (getAssetAddress h128 "widget") = 70 /\
  String.length (getTransferAddress h128 "widget") = 70 /\
  String.length (getTransferAcknAddress h128 "widget") = 70 /\
  String.length (getTransferApproveAddress h128 "widget") = 70 /\
  String.length (getRegulatorAddress h128 "widget") = 70 /\
  String.length (getParticipantAddress h128 "widget") = 70.
Proof.
  apply (address_length h128). intro k. apply Nat.leb_le. vm_compute. reflexivity.
Defined.

Lemma writes_within_namespace_witness :
  exists ws,
    writes (snd (apply h0 (mkPayload "transfer" "widget" (Some "bob")) "alice"
                       (mkCtx st_created []))) = ([] ++ ws)%list /\
    Forall (fun aw => exists ns, In ns (namespaces (JSONHandler_registration h0)) /\
                                 String.prefix ns (fst aw) = true) ws.
Proof.
  apply (writes_within_namespace h0 (mkPayload "transfer" "widget" (Some "bob")) "alice"
           st_created [] [getTransferAcknAddress h0 "widget"]).
  vm_compute. reflexivity.
Defined.

Lemma create_writes_record_witness :
  let ws := [(getAssetAddress h0 "widget",
              encode [("name", Some "widget"); ("owner", Some "alice")])] in
  createAsset h0 "widget" "alice" c_empty
  = (Ok (map fst ws), mkCtx (apply_writes ws (store c_empty)) (writes c_empty ++ ws)%list).
Proof.
  apply (create_writes_record h0 "widget" "alice" c_empty). vm_compute. reflexivity.
Defined.

Lemma offer_by_owner_writes_ackn_slot_witness :
  let ws := [(getTransferAcknAddress h0 "widget",
              encode [("asset", Some "widget"); ("owner", Some "bob")])] in
  transferAsset h0 "widget" (Some "bob") "alice" (mkCtx st_created [])
  = (Ok (map fst ws), mkCtx (apply_writes ws st_created) ([] ++ ws)%list).
Proof.
  apply (offer_by_owner_writes_ackn_slot h0 "widget" (Some "bob") "alice"
           (mkCtx st_created []) record_widget_alice); vm_compute; reflexivity.
Defined.

Lemma acknowledge_by_other_rejected_witness :
  acknowledgeTransfer h0 "widget" "mallory" (mkCtx st_offered [])
  = (Err (InvalidTransaction "Transfers can only be acknowledged by the new buyer"),
     mkCtx st_offered []).
Proof.
  apply (acknowledge_by_other_rejected h0 "widget" "mallory" (mkCtx st_offered [])
           offer_widget_bob).
  - vm_compute. reflexivity.
  - vm_compute. discriminate.
Defined.

Lemma reject_with_record_witness :
  rejectTransfer h0 "widget" "bob" (mkCtx st_transfer_record [])
  = (Ok [getTransferAddress h0 "widget"],
     mkCtx (apply_writes [(getTransferAddress h0 "widget", "")] st_transfer_record)
           ([] ++ [(getTransferAddress h0 "widget", "")])%list) /\
  rejectTransfer h0 "widget" "mallory" (mkCtx st_transfer_record [])
  = (Err (InvalidTransaction "Transfers can only be rejected by the potential new owner"),
     mkCtx st_transfer_record []).
Proof.
  split.
  - apply (proj1 (reject_with_record h0 "widget" "bob" (mkCtx st_transfer_record [])
                    offer_widget_bob ltac:(vm_compute; reflexivity))).
    vm_compute. reflexivity.
  - apply (proj2 (reject_with_record h0 "widget" "mallory" (mkCtx st_transfer_record [])
                    offer_widget_bob ltac:(vm_compute; reflexivity))).
    vm_compute. discriminate.
Defined.

Lemma asset_record_immutable_witness :
  store (snd (apply h0 (mkPayload "transfer" "widget" (Some "bob")) "alice"
                    (mkCtx st_created [])))
        (getAssetAddress h0 "widget")
  = st_created (getAssetAddress h0 "widget").
Proof.
  apply (asset_record_immutable h0 (mkPayload "transfer" "widget" (Some "bob")) "alice"
           st_created [] [getTransferAcknAddress h0 "widget"]).
  - vm_compute. reflexivity.
  - vm_compute. discriminate.
Defined.

Lemma approval_never_cleared_witness :
  store (snd (apply h0 (mkPayload "create" "gadget" None) "carol" (mkCtx st_acked [])))
        (getTransferApproveAddress h0 "widget") <> "".
Proof.
  apply (approval_never_cleared h0 (mkPayload "create" "gadget" None) "carol"
           st_acked [] [getAssetAddress h0 "gadget"]).
  - vm_compute. reflexivity.
  - vm_compute. discriminate.
Defined.

Lemma offer_without_owner_unacknowledgeable_witness :
  acknowledgeTransfer h0 "widget" "bob"
    (snd (transferAsset h0 "widget" None "alice" (mkCtx st_created [])))
  = (Err (InvalidTransaction "Transfers can only be acknowledged by the new buyer"),
     snd (transferAsset h0 "widget" None "alice" (mkCtx st_created []))).
Proof.
  apply (offer_without_owner_unacknowledgeable h0 "widget" "alice" (mkCtx st_created [])
           _ [getTransferAcknAddress h0 "widget"]).
  vm_compute. reflexivity.
Defined.

Lemma lifecycle_create_offer_acknowledge_witness :
  exists r1 c1 r2 c2 r3 c3,
    apply h0 (mkPayload "create" "widget" None) "alice" c_empty = (Ok r1, c1) /\
    apply h0 (mkPayload "transfer" "widget" (Some "bob")) "alice" c1 = (Ok r2, c2) /\
    apply h0 (mkPayload "acknowledge" "widget" None) "bob" c2 = (Ok r3, c3) /\
    store c3 (getAssetAddress h0 "widget")
      = encode [("name", Some "widget"); ("owner", Some "alice")] /\
    store c3 (getTransferAcknAddress h0 "widget") = "" /\
    store c3 (getTransferApproveAddress h0 "widget")
      = encode [("name", Some "widget"); ("owner", Some "bob")] /\
    apply h0 (mkPayload "accept" "widget" None) "regulator1" c3
      = (Err (InvalidTransaction "Asset is not being transfered"), c3).
Proof.
  apply (lifecycle_create_offer_acknowledge h0 "widget" "alice" "bob" "regulator1"
           st_empty []).
  reflexivity.
Defined.


Lemma encode_injective_up_to_order_witness :
  Permutation record_unsorted (rev record_unsorted).
Proof.
  apply (encode_injective_up_to_order record_unsorted (rev record_unsorted)).
  - split; repeat constructor; simpl; intuition discriminate.
  - split; repeat constructor; simpl; intuition discriminate.
  - vm_compute. reflexivity.
Defined.


Lemma acknowledge_only_once_witness :
  acknowledgeTransfer h0 "widget" "carol"
    (snd (acknowledgeTransfer h0 "widget" "bob" (mkCtx st_offered [])))
  = (Err (InvalidTransaction "Asset is not being transfered"),
     snd (acknowledgeTransfer h0 "widget" "bob" (mkCtx st_offered []))).
Proof.
  apply (acknowledge_only_once h0 "widget" "bob" "carol" (mkCtx st_offered []) _
           [getTransferAcknAddress h0 "widget"; getTransferApproveAddress h0 "widget"]).
  vm_compute. reflexivity.
Defined.

Lemma offers_only_for_created_assets_witness :
  st_offered (getTransferAcknAddress h0 "widget") <> "" /\
  st_offered (getAssetAddress h0 "widget") <> "".
Proof.
  assert (Hk : st_offered (getTransferAcknAddress h0 "widget") <> "")
    by (vm_compute; discriminate).
  split; [exact Hk|].
  apply (proj1 (offers_only_for_created_assets h0 st_offered reachable_offered "widget")).
  exact Hk.
Defined.

End Runs.
